(** * py-multihash: the multihash codec of [multihash/multihash.py]

    A shallow embedding of the module's functions ([decode], [encode],
    [is_app_code], [is_valid_code] and the three private
    [__raise_errors_if_...] helpers) as Rocq functions into an exception
    monad, followed by the properties of the codec.

    Conventions of the embedding.
    - Python 3 semantics: indexing a [bytes] object gives an [int], and
      [bytes([a, b])] builds a two-byte string.
    - An exception is a value of type [exn]; a computation that raises
      returns [Raise e], one that returns normally returns [Return v].
      Statements run in program order, so the first exception wins.
    - A global name read inside a function body is looked up in the module
      namespace [module_globals] when the statement runs, as Python does;
      a name the module never binds raises [NameError].
    - Only what the function bodies read is modelled.  The module-level
      table [FUNCS] (lines 76-87), which names [hashlib] although the
      module never imports it, is read by no function and is left out.
      The call on line 110 is written [(code, length, name digest)] in the
      source, which Python does not parse; it is read here with its four
      arguments [(code, length, name, digest)], the signature of the
      callee.  The properties below are those of the function bodies, were
      the module to load. *)

From Stdlib Require Import ZArith List String Bool QArith Lia.
From Stdlib.Strings Require Import Byte.
Import ListNotations.
Set Warnings "-register-all".
Local Open Scope string_scope.
Local Open Scope Z_scope.

(** ** Python values *)

(** The values the functions of the module can meet.  A finite [float] is
    modelled by the rational number it denotes. *)
Inductive value : Type :=
| VNone
| VBool (b : bool)
| VInt (n : Z)
| VFloat (q : Q)
| VStr (s : string)
| VBytes (bs : list byte)
| VList (items : list value)
| VDict (items : list (value * value)).

Definition bytes := list byte.

(** ** Exceptions *)

Inductive type_error : Type :=
| NotCallable        (* 'dict' object is not callable *)
| Unhashable         (* unhashable type: 'list' / 'dict' *)
| NotOrderable       (* '>=' not supported between instances of ... *)
| NotSubscriptable.  (* object is not subscriptable *)

(** The [ValueError]s of the module, one constructor per [raise] statement
    (with the values its message is formatted from), and the two that the
    interpreter raises on the module's behalf. *)
Inductive value_error : Type :=
| IllegalMultihashLength (len : Z)                  (* line 189 *)
| InvalidMultihashCode (code : value)               (* lines 194, 213 *)
| InconsistentDigestLength (actual length : Z)      (* line 201 *)
| InconsistentInputLength (actual : Z) (name default : value)  (* line 218 *)
| IllegalDigestLength (length : Z)                  (* line 229 *)
| BadFormatString (line : Z)  (* str.format on the templates of lines 205, 222 *)
| BytesOutOfRange.    (* bytes([...]) with an item outside range(0, 256) *)

Inductive exn : Type :=
| NameError (name : string)
| KeyError (key : value)
| IndexError
| TypeError (what : type_error)
| AssertionError (name : string) (code : Z)
| ValueError (what : value_error).

Inductive result (A : Type) : Type :=
| Return (a : A)
| Raise (e : exn).
Arguments Return {A} a.
Arguments Raise {A} e.

Definition bind {A B : Type} (m : result A) (k : A -> result B) : result B :=
  match m with
  | Return a => k a
  | Raise e => Raise e
  end.

Notation "x <- m ;; k" := (bind m (fun x => k))
  (at level 61, m at next level, right associativity).
Notation "m ;;; k" := (bind m (fun _ => k))
  (at level 61, right associativity).

(** [if cond: raise e] *)
Definition raise_if (cond : bool) (e : exn) : result unit :=
  if cond then Raise e else Return tt.

(** ** Built-in operations the module uses *)

(** [isinstance(v, numbers.Integral)]: [int] and its subclass [bool]. *)
Definition isinstance_Integral (v : value) : bool :=
  match v with
  | VInt _ | VBool _ => true
  | _ => false
  end.

(** The number a numeric value denotes. *)
Definition as_number (v : value) : option Q :=
  match v with
  | VBool b => Some (inject_Z (Z.b2z b))
  | VInt n => Some (inject_Z n)
  | VFloat q => Some q
  | _ => None
  end.

(** [a >= b], [a < b], [a > b] with an integer on the right: defined
    between numbers, a [TypeError] otherwise. *)
Definition py_ge (a : value) (b : Z) : result bool :=
  match as_number a with
  | Some q => Return (Qle_bool (inject_Z b) q)
  | None => Raise (TypeError NotOrderable)
  end.

Definition py_lt (a : value) (b : Z) : result bool :=
  match as_number a with
  | Some q => Return (negb (Qle_bool (inject_Z b) q))
  | None => Raise (TypeError NotOrderable)
  end.

Definition py_gt (a : Z) (b : value) : result bool :=
  match as_number b with
  | Some q => Return (negb (Qle_bool (inject_Z a) q))
  | None => Raise (TypeError NotOrderable)
  end.

(** [hash(v)] succeeds: lists and dicts are unhashable. *)
Definition hashable (v : value) : bool :=
  match v with
  | VList _ | VDict _ => false
  | _ => true
  end.

(** [a == b] between hashable values (the only ones a dict compares). *)
Definition py_eq (a b : value) : bool :=
  match as_number a, as_number b with
  | Some p, Some q => Qeq_bool p q
  | _, _ =>
      match a, b with
      | VNone, VNone => true
      | VStr s, VStr t => String.eqb s t
      | VBytes s, VBytes t => if list_eq_dec Byte.byte_eq_dec s t then true else false
      | _, _ => false
      end
  end.

(** A dict is an association list in insertion order. *)
Fixpoint dict_find (d : list (value * value)) (key : value) : option value :=
  match d with
  | [] => None
  | (k, v) :: rest => if py_eq k key then Some v else dict_find rest key
  end.

(** [container[key]] on a dict. *)
Definition getitem (container key : value) : result value :=
  match container with
  | VDict d =>
      if hashable key then
        match dict_find d key with
        | Some v => Return v
        | None => Raise (KeyError key)
        end
      else Raise (TypeError Unhashable)
  | _ => Raise (TypeError NotSubscriptable)
  end.

(** [key in container] on a dict. *)
Definition py_in (key container : value) : result bool :=
  match container with
  | VDict d =>
      if hashable key then
        Return (match dict_find d key with Some _ => true | None => false end)
      else Raise (TypeError Unhashable)
  | _ => Raise (TypeError NotSubscriptable)
  end.

(** [f(arg)]: none of the values above is callable. *)
Definition py_call (f : value) (arg : value) : result value :=
  Raise (TypeError NotCallable).

(** [len(buf)], [buf[i]] for [i >= 0], [buf[2:]] and [buf[:stop]] on bytes. *)
Definition len (buf : bytes) : Z := Z.of_nat (List.length buf).

Definition byte_to_Z (b : byte) : Z := Z.of_N (Byte.to_N b).

Definition bytes_getitem (buf : bytes) (i : nat) : result Z :=
  match nth_error buf i with
  | Some b => Return (byte_to_Z b)
  | None => Raise IndexError
  end.

Definition slice_to (buf : bytes) (stop : option Z) : bytes :=
  match stop with
  | None => buf
  | Some n =>
      if 0 <=? n then firstn (Z.to_nat n) buf
      else firstn (Z.to_nat (len buf + n)) buf
  end.

(** One item of [bytes([...])]. *)
Definition byte_of_Z (n : Z) : result byte :=
  if (0 <=? n) && (n <? 256) then
    match Byte.of_N (Z.to_N n) with
    | Some b => Return b
    | None => Raise (ValueError BytesOutOfRange)
    end
  else Raise (ValueError BytesOutOfRange).

(** [bytes([a, b])] *)
Definition bytes_of_pair (a b : Z) : result bytes :=
  x <- byte_of_Z a ;;
  y <- byte_of_Z b ;;
  Return [x; y].

(** ** The module namespace *)

(** Currently supported hashes (lines 42-47). *)
Definition SHA1 : Z := 0x11.
Definition SHA2_256 : Z := 0x12.
Definition SHA2_512 : Z := 0x13.
Definition SHA3 : Z := 0x14.
Definition BLAKE2B : Z := 0x40.
Definition BLAKE2S : Z := 0x41.

(** [NAMES] maps the name of a hash to its code (lines 52-59). *)
Definition NAMES : list (value * value) :=
  [ (VStr "sha1", VInt SHA1);
    (VStr "sha2-256", VInt SHA2_256);
    (VStr "sha2-512", VInt SHA2_512);
    (VStr "sha3", VInt SHA3);
    (VStr "blake2b", VInt BLAKE2B);
    (VStr "blake2s", VInt BLAKE2S) ].

(** [CODES = dict((v, k) for k, v in NAMES.items())] (line 64). *)
Definition CODES : list (value * value) :=
  map (fun kv => (snd kv, fst kv)) NAMES.

(** [LENGTHS] maps each hash code to its default length (lines 67-74). *)
Definition LENGTHS : list (value * value) :=
  [ (VInt SHA1, VInt 20);
    (VInt SHA2_256, VInt 32);
    (VInt SHA2_512, VInt 64);
    (VInt SHA3, VInt 64);
    (VInt BLAKE2B, VInt 64);
    (VInt BLAKE2S, VInt 32) ].

(** The data names the module binds. *)
Definition module_globals : list (string * value) :=
  [ ("SHA1", VInt SHA1);
    ("SHA2_256", VInt SHA2_256);
    ("SHA2_512", VInt SHA2_512);
    ("SHA3", VInt SHA3);
    ("BLAKE2B", VInt BLAKE2B);
    ("BLAKE2S", VInt BLAKE2S);
    ("NAMES", VDict NAMES);
    ("CODES", VDict CODES);
    ("LENGTHS", VDict LENGTHS) ].

Fixpoint lookup_name (ns : list (string * value)) (name : string) : option value :=
  match ns with
  | [] => None
  | (n, v) :: rest => if String.eqb n name then Some v else lookup_name rest name
  end.

(** Reading the global [name] at run time. *)
Definition global (name : string) : result value :=
  match lookup_name module_globals name with
  | Some v => Return v
  | None => Raise (NameError name)
  end.

(** Truth value of an optional integer or string argument: [None], [0]
    and the empty string are false. *)
Definition truthy_int (x : option Z) : bool :=
  match x with
  | Some n => negb (n =? 0)
  | None => false
  end.

Definition truthy_str (x : option string) : bool :=
  match x with
  | Some s => negb (String.eqb s "")
  | None => false
  end.

(** ** The functions of the module *)

(** [namedtuple("Multihash", "code, length, name, digest")] (line 90). *)
Record Multihash : Type := __DecodedMultihash {
  code : Z;
  length : Z;
  name : value;
  digest : bytes
}.

(** [is_app_code] (lines 156-168). *)
Definition is_app_code (code : value) : result bool :=
  if isinstance_Integral code then
    lower <- py_ge code 0 ;;
    if lower then py_lt code 0x10 else Return false
  else Return false.

(** [is_valid_code] (lines 170-181). *)
Definition is_valid_code (code : value) : result bool :=
  app <- is_app_code code ;;
  if app then Return true
  else
    codes <- global "CODES" ;;
    py_in code codes.

(** [__raise_errors_if_invalid_buffer_length] (lines 186-189).  The chained
    comparison [3 > len(buf) > 129] is [3 > len(buf) and len(buf) > 129]. *)
Definition __raise_errors_if_invalid_buffer_length (buf : bytes) : result unit :=
  raise_if ((3 >? len buf) && (len buf >? 129))
           (ValueError (IllegalMultihashLength (len buf))).

(** [__raise_errors_if_invalid_multihash_buffer] (lines 191-206). *)
Definition __raise_errors_if_invalid_multihash_buffer
    (code length : Z) (name : value) (digest : bytes) : result unit :=
  valid <- is_valid_code (VInt code) ;;
  raise_if (negb valid) (ValueError (InvalidMultihashCode (VInt code))) ;;;
  let actual := len digest in
  lengths <- global "LENGTHS" ;;
  default <- py_call lengths (VInt code) ;;
  raise_if (negb (length =? actual))
           (ValueError (InconsistentDigestLength actual length)) ;;;
  app <- is_app_code (VInt code) ;;
  if negb app then
    longer <- py_gt actual default ;;
    raise_if longer (ValueError (BadFormatString 205))
  else Return tt.

(** [__raise_errors_if_invalid_encoding_length] (lines 208-229). *)
Definition __raise_errors_if_invalid_encoding_length
    (digest : bytes) (code : Z) (length : option Z) : result unit :=
  let actual := len digest in
  lenghts <- global "LENGHTS" ;;
  default <- getitem lenghts (VInt code) ;;
  names <- global "NAMES" ;;
  name <- getitem names (VInt code) ;;
  valid <- is_valid_code (VInt code) ;;
  raise_if (negb valid) (ValueError (InvalidMultihashCode (VInt code))) ;;;
  app <- is_app_code (VInt code) ;;
  (if negb app then
     lengths <- global "LENGTHS" ;;
     conventional <- py_call lengths (VInt code) ;;
     raise_if (negb (py_eq (VInt actual) conventional))
              (ValueError (InconsistentInputLength actual name default))
   else Return tt) ;;;
  raise_if (truthy_int length
            && match length with Some n => n >? actual | None => false end)
           (ValueError (BadFormatString 222)) ;;;
  let length := actual in
  raise_if ((1 >? length) && (length >? 127))
           (ValueError (IllegalDigestLength length)).

(** [encode] (lines 113-152). *)
Definition encode (digest : bytes) (code : Z)
    (length : option Z) (name : option string) : result bytes :=
  __raise_errors_if_invalid_encoding_length digest code length ;;;
  (if truthy_str name then
     app <- is_app_code (VInt code) ;;
     if negb app then
       codes <- global "CODES" ;;
       expected <- getitem codes (VInt code) ;;
       match name with
       | Some n => raise_if (negb (py_eq (VStr n) expected)) (AssertionError n code)
       | None => Return tt
       end
     else Return tt
   else Return tt) ;;;
  let actual_length :=
    if truthy_int length
    then match length with Some n => n | None => len digest end
    else len digest in
  let truncated_digest := slice_to digest length in
  header <- bytes_of_pair code actual_length ;;
  Return (header ++ truncated_digest)%list.

(** [decode] (lines 92-111). *)
Definition decode (buf : bytes) : result Multihash :=
  __raise_errors_if_invalid_buffer_length buf ;;;
  code <- bytes_getitem buf 0 ;;
  length <- bytes_getitem buf 1 ;;
  let digest := skipn 2 buf in
  codes <- global "CODES" ;;
  name <- getitem codes (VInt code) ;;
  __raise_errors_if_invalid_multihash_buffer code length name digest ;;;
  Return (__DecodedMultihash code length name digest).

(** ** The error names of the specification *)

(** The specification names the failures of the codec; each name stands
    for the [raise] statements listed here.  The templates of lines 205
    and 222 are malformed ([{0]]), so the [ValueError] that leaves those
    two statements is the one [str.format] raises. *)
Inductive spec_error : Type :=
| BufferLengthOutOfRange
| InvalidIdentifier
| LengthMismatch
| LengthExceedsConventional
| DigestLengthMismatch
| RequestedLengthTooLarge
| IllegalDigestLengthError
| NameCodeMismatch.

Definition spec_error_of (e : exn) : option spec_error :=
  match e with
  | ValueError (IllegalMultihashLength _) => Some BufferLengthOutOfRange
  | ValueError (InvalidMultihashCode _) => Some InvalidIdentifier
  | ValueError (InconsistentDigestLength _ _) => Some LengthMismatch
  | ValueError (BadFormatString 205) => Some LengthExceedsConventional
  | ValueError (InconsistentInputLength _ _ _) => Some DigestLengthMismatch
  | ValueError (BadFormatString 222) => Some RequestedLengthTooLarge
  | ValueError (IllegalDigestLength _) => Some IllegalDigestLengthError
  | AssertionError _ _ => Some NameCodeMismatch
  | _ => None
  end.

(** The registry of the specification: identifier, canonical name and
    conventional length. *)
Definition registry : list (Z * string * Z) :=
  [ (0x11, "sha1", 20); (0x12, "sha2-256", 32); (0x13, "sha2-512", 64);
    (0x14, "sha3", 64); (0x40, "blake2b", 64); (0x41, "blake2s", 32) ].

Definition registry_keys : list Z := map (fun e => fst (fst e)) registry.

Definition registered (code : Z) : bool := existsb (Z.eqb code) registry_keys.

(** The 20-byte SHA-1 digest of the docstrings of [decode] and [encode]. *)
Definition sha1_digest : bytes :=
  [ xf7; xff; x9e; x8b; x7b; xb2; xe0; x9b; x70; x93;
    x5a; x5d; x78; x5e; x0c; xc5; xd9; xd0; xab; xf0 ].

(** * Properties *)

(** ** Built-in operations on integers *)

Lemma py_eq_int (a b : Z) : py_eq (VInt a) (VInt b) = (a =? b).
Proof.
  unfold py_eq, Qeq_bool; simpl.
  now rewrite !Z.mul_1_r.
Qed.

Lemma py_ge_int (a b : Z) : py_ge (VInt a) b = Return (b <=? a).
Proof.
  unfold py_ge, Qle_bool; simpl.
  now rewrite !Z.mul_1_r.
Qed.

Lemma py_lt_int (a b : Z) : py_lt (VInt a) b = Return (a <? b).
Proof.
  unfold py_lt, Qle_bool; simpl.
  rewrite !Z.mul_1_r. f_equal.
  now rewrite Z.ltb_antisym.
Qed.

(** ** The module namespace at run time *)

(** The module binds [LENGTHS]; the name [LENGHTS] that line 210 reads is
    bound nowhere. *)
Lemma LENGHTS_is_unbound : global "LENGHTS" = Raise (NameError "LENGHTS").
Proof. reflexivity. Qed.

(** [NAMES] is keyed by name, so [NAMES[code]] (line 211) finds no integer. *)
Lemma NAMES_has_no_integer_key (n : Z) :
  getitem (VDict NAMES) (VInt n) = Raise (KeyError (VInt n)).
Proof. reflexivity. Qed.

(** [LENGTHS(code)] (lines 197, 216) calls a dict. *)
Lemma LENGTHS_is_not_callable (n : Z) :
  lengths <- global "LENGTHS" ;; py_call lengths (VInt n)
  = Raise (TypeError NotCallable).
Proof. reflexivity. Qed.

(** What [CODES] holds for an integer key. *)
Lemma CODES_find_int (n : Z) :
  match dict_find CODES (VInt n) with Some _ => true | None => false end
  = registered n.
Proof.
  unfold CODES, NAMES, registered, registry_keys, registry.
  cbn [map fst snd dict_find existsb].
  rewrite !py_eq_int, !(Z.eqb_sym n).
  unfold SHA1, SHA2_256, SHA2_512, SHA3, BLAKE2B, BLAKE2S.
  repeat match goal with
         | |- context [?a =? n] => destruct (a =? n); cbn [orb]; try reflexivity
         end.
Qed.

Lemma CODES_is_bound : global "CODES" = Return (VDict CODES).
Proof. reflexivity. Qed.

Lemma py_in_CODES_int (n : Z) :
  py_in (VInt n) (VDict CODES) = Return (registered n).
Proof.
  unfold py_in; cbn [hashable].
  f_equal. apply CODES_find_int.
Qed.

(** ** The classification predicates on integers *)

Lemma is_app_code_int (n : Z) :
  is_app_code (VInt n) = Return ((0 <=? n) && (n <? 0x10)).
Proof.
  unfold is_app_code; simpl isinstance_Integral; cbv iota.
  rewrite py_ge_int; cbn [bind].
  destruct (0 <=? n); simpl; [apply py_lt_int | reflexivity].
Qed.

Lemma is_valid_code_int (n : Z) :
  is_valid_code (VInt n) = Return ((0 <=? n) && (n <? 0x10) || registered n).
Proof.
  unfold is_valid_code. rewrite is_app_code_int; cbn [bind].
  destruct ((0 <=? n) && (n <? 16)); cbn [orb]; [reflexivity |].
  rewrite CODES_is_bound; cbn [bind].
  apply py_in_CODES_int.
Qed.

(** ** The private checks *)

(** The guard of line 187 asks for a length both below 3 and above 129. *)
Lemma buffer_length_check_never_raises (buf : bytes) :
  __raise_errors_if_invalid_buffer_length buf = Return tt.
Proof.
  unfold __raise_errors_if_invalid_buffer_length, raise_if.
  destruct (3 >? len buf) eqn:Hlow; [| reflexivity].
  destruct (len buf >? 129) eqn:Hhigh; [| reflexivity].
  rewrite Z.gtb_lt in Hlow, Hhigh. lia.
Qed.

(** Line 210 raises before any of the checks that follow it. *)
Lemma encoding_length_check_raises (digest : bytes) (code : Z) (length : option Z) :
  __raise_errors_if_invalid_encoding_length digest code length
  = Raise (NameError "LENGHTS").
Proof.
  unfold __raise_errors_if_invalid_encoding_length.
  now rewrite LENGHTS_is_unbound.
Qed.

Lemma encode_raises (digest : bytes) (code : Z) (length : option Z) (name : option string) :
  encode digest code length name = Raise (NameError "LENGHTS").
Proof.
  unfold encode. now rewrite encoding_length_check_raises.
Qed.

(** A valid code reaches line 197, an invalid one stops at line 194. *)
Lemma multihash_buffer_check_raises (code length : Z) (name : value) (digest : bytes) :
  __raise_errors_if_invalid_multihash_buffer code length name digest
  = if (0 <=? code) && (code <? 0x10) || registered code
    then Raise (TypeError NotCallable)
    else Raise (ValueError (InvalidMultihashCode (VInt code))).
Proof.
  unfold __raise_errors_if_invalid_multihash_buffer.
  rewrite is_valid_code_int; cbn [bind].
  destruct ((0 <=? code) && (code <? 16) || registered code); reflexivity.
Qed.

(** ** [decode] on every buffer *)

Lemma decode_short (buf : bytes) :
  (List.length buf < 2)%nat -> decode buf = Raise IndexError.
Proof.
  intros Hlen. unfold decode.
  rewrite buffer_length_check_never_raises; cbn [bind].
  destruct buf as [| c [| l d]]; simpl in *; try reflexivity. lia.
Qed.

Lemma decode_from_two_bytes (c l : byte) (d : bytes) :
  decode (c :: l :: d)
  = if registered (byte_to_Z c)
    then Raise (TypeError NotCallable)
    else Raise (KeyError (VInt (byte_to_Z c))).
Proof.
  unfold decode.
  rewrite buffer_length_check_never_raises.
  cbn [bind bytes_getitem nth_error skipn].
  rewrite CODES_is_bound; cbn [bind].
  unfold getitem; cbn [hashable].
  pose proof (CODES_find_int (byte_to_Z c)) as Hfind.
  destruct (dict_find CODES (VInt (byte_to_Z c))) as [nm |]; rewrite <- Hfind.
  - cbn [bind]. rewrite multihash_buffer_check_raises, <- Hfind, orb_true_r.
    reflexivity.
  - reflexivity.
Qed.

(** No buffer decodes, and no failure of [decode] is one the specification
    names. *)
Lemma decode_raises (buf : bytes) :
  exists e, decode buf = Raise e /\ spec_error_of e = None.
Proof.
  destruct buf as [| c [| l d]].
  - exists IndexError. split; [apply decode_short; simpl; lia | reflexivity].
  - exists IndexError. split; [apply decode_short; simpl; lia | reflexivity].
  - rewrite decode_from_two_bytes.
    destruct (registered (byte_to_Z c)); eexists; split; reflexivity.
Qed.

(** ** [is_app_code] and [is_valid_code] on every value *)

Lemma is_app_code_returns (v : value) : exists b, is_app_code v = Return b.
Proof.
  destruct v as [| b | n | q | s | bs | items | items];
    try (exists false; reflexivity).
  - exists true. now destruct b.
  - rewrite is_app_code_int. eauto.
Qed.

Lemma is_valid_code_unhashable (v : value) :
  hashable v = false -> is_valid_code v = Raise (TypeError Unhashable).
Proof.
  destruct v; simpl; intros Hv; try discriminate; reflexivity.
Qed.

Lemma is_valid_code_hashable (v : value) :
  hashable v = true -> exists b, is_valid_code v = Return b.
Proof.
  intros Hv. unfold is_valid_code.
  destruct (is_app_code_returns v) as [app ->]; cbn [bind].
  destruct app; [now exists true |].
  rewrite CODES_is_bound; cbn [bind].
  unfold py_in. rewrite Hv. eauto.
Qed.

(** * The claims *)

(** C1 (round trip).  The claim: for a registered identifier and a digest
    of its conventional length, decoding [encode(digest, identifier)] gives
    [(identifier, len(digest), name, digest)].  The code: [encode] raises
    [NameError] on every digest and identifier, so the composition raises
    too, and [decode] raises [TypeError] on the container the docstring of
    [encode] shows for the SHA-1 example. *)
Theorem roundtrip_raises (digest : bytes) (code : Z) :
  encode digest code None None = Raise (NameError "LENGHTS")
  /\ (container <- encode digest code None None ;; decode container)
     = Raise (NameError "LENGHTS")
  /\ decode (x11 :: x14 :: sha1_digest) = Raise (TypeError NotCallable).
Proof.
  rewrite encode_raises. repeat split.
Qed.

(** C2 (buffer length).  The claim: [decode] fails with
    BufferLengthOutOfRange on a buffer whose length is outside [3, 129].
    The code: the length check never raises; the empty buffer raises
    [IndexError], the two-byte and the 130-byte buffers pass the length
    check and raise [TypeError] further on; no buffer at all makes
    [decode] fail with an error the specification names. *)
Theorem decode_length_out_of_range_not_reported :
  (forall buf, __raise_errors_if_invalid_buffer_length buf = Return tt)
  /\ decode [] = Raise IndexError
  /\ decode [x11; x00] = Raise (TypeError NotCallable)
  /\ decode (x11 :: x80 :: repeat x00 128) = Raise (TypeError NotCallable)
  /\ (forall buf, exists e, decode buf = Raise e /\ spec_error_of e = None).
Proof.
  split; [exact buffer_length_check_never_raises |].
  split; [reflexivity |].
  split; [reflexivity |].
  split; [apply decode_from_two_bytes | exact decode_raises].
Qed.

(** C3 (application-specific identifier 0x05).  The claim: with identifier
    0x05 and a digest of 1 to 127 bytes, [encode] succeeds, [decode] of
    the container succeeds and the decoded name is [None].  The code:
    [encode] raises [NameError] whatever the digest, and [decode] raises
    [KeyError] on every container that starts with 0x05, because
    [CODES[code]] (line 109) has no entry for it. *)
Theorem app_specific_code_5_raises :
  (forall digest length name,
      encode digest 0x05 length name = Raise (NameError "LENGHTS"))
  /\ (forall length digest,
      decode (x05 :: length :: digest) = Raise (KeyError (VInt 0x05))).
Proof.
  split.
  - intros. apply encode_raises.
  - intros. now rewrite decode_from_two_bytes.
Qed.

(** C4 (digest of the wrong length).  The claim: for a registered
    identifier, [encode] fails with DigestLengthMismatch when the digest
    is not of the conventional length, for example a 19-byte digest with
    SHA1.  The code: that call raises [NameError], and no call of the
    encoding check or of [encode] fails with an error the specification
    names. *)
Theorem digest_length_mismatch_not_reported :
  encode (firstn 19 sha1_digest) SHA1 None None = Raise (NameError "LENGHTS")
  /\ (forall digest code length,
         exists e, __raise_errors_if_invalid_encoding_length digest code length = Raise e
                   /\ spec_error_of e = None)
  /\ (forall digest code length name,
         exists e, encode digest code length name = Raise e
                   /\ spec_error_of e = None).
Proof.
  split; [apply encode_raises |].
  split; intros; eexists; split;
    [apply encoding_length_check_raises | | apply encode_raises |]; reflexivity.
Qed.

(** C5 (truncation).  The claim: [encode(digest, id, length=k)] with
    [1 <= k < len(digest)] gives a container whose decoded digest is the
    first [k] bytes; the 20-byte SHA-1 digest with length 10 gives
    0x11 0x0A and the first ten bytes.  The code: [encode] raises
    [NameError] for every requested length, and [decode] raises
    [TypeError] on the container the claim expects. *)
Theorem truncation_raises :
  encode sha1_digest 0x11 (Some 10) None = Raise (NameError "LENGHTS")
  /\ (forall digest code k,
         (container <- encode digest code (Some k) None ;; decode container)
         = Raise (NameError "LENGHTS"))
  /\ decode (x11 :: x0a :: firstn 10 sha1_digest) = Raise (TypeError NotCallable).
Proof.
  split; [apply encode_raises |].
  split; [| reflexivity].
  intros. now rewrite encode_raises.
Qed.

(** C6 (valid identifiers).  The claim: [is_valid_code] is true exactly on
    the application-specific integers [0 <= n < 16] and on the keys of the
    registry, so 0x10 is invalid, and the operations fail on 0x10 with
    InvalidIdentifier.  The code: the predicate is as claimed, 0x10 is
    invalid, and the decoding check called on 0x10 raises the
    invalid-code [ValueError]; but [decode] raises [KeyError] on line 109
    before it calls that check, and [encode] raises [NameError]. *)
Theorem is_valid_code_and_identifier_0x10 :
  (forall n, is_app_code (VInt n) = Return ((0 <=? n) && (n <? 16)))
  /\ (forall n, is_valid_code (VInt n)
                = Return ((0 <=? n) && (n <? 16) || registered n))
  /\ is_valid_code (VInt 0x10) = Return false
  /\ (forall length name digest,
         __raise_errors_if_invalid_multihash_buffer 0x10 length name digest
         = Raise (ValueError (InvalidMultihashCode (VInt 0x10))))
  /\ (forall length digest,
         decode (x10 :: length :: digest) = Raise (KeyError (VInt 0x10)))
  /\ (forall digest length name,
         encode digest 0x10 length name = Raise (NameError "LENGHTS")).
Proof.
  split; [exact is_app_code_int |].
  split; [exact is_valid_code_int |].
  split; [reflexivity |].
  split; [| split].
  - intros. now rewrite multihash_buffer_check_raises.
  - intros. now rewrite decode_from_two_bytes.
  - intros. apply encode_raises.
Qed.

(** C7 (requested length too large).  The claim: [encode] fails with
    RequestedLengthTooLarge when the requested length exceeds the length
    of the digest.  The code: a one-byte digest with identifier 0x05 and
    requested length 2 raises [NameError], as does every call whose
    requested length exceeds [len(digest)], so line 223 is never reached. *)
Theorem requested_length_too_large_not_reported :
  encode [x00] 0x05 (Some 2) None = Raise (NameError "LENGHTS")
  /\ (forall digest code (excess : positive) name,
         exists e, encode digest code (Some (len digest + Z.pos excess)) name = Raise e
                   /\ spec_error_of e = None).
Proof.
  split; [apply encode_raises |].
  intros. exists (NameError "LENGHTS").
  split; [apply encode_raises | reflexivity].
Qed.

(** C8 (illegal digest length).  The claim: [encode] fails with
    IllegalDigestLength when the effective length is outside [1, 127].
    The code: the empty digest and a 128-byte digest with identifier 0x05
    raise [NameError]; and the guard of line 227, a length both below 1
    and above 127, holds for no length. *)
Theorem illegal_digest_length_not_reported :
  encode [] 0x05 None None = Raise (NameError "LENGHTS")
  /\ encode (repeat x00 128) 0x05 None None = Raise (NameError "LENGHTS")
  /\ (forall digest : bytes,
         raise_if ((1 >? len digest) && (len digest >? 127))
                  (ValueError (IllegalDigestLength (len digest)))
         = Return tt).
Proof.
  repeat (split; [apply encode_raises |]).
  intros digest. unfold raise_if.
  destruct (1 >? len digest) eqn:Hlow; [| reflexivity].
  destruct (len digest >? 127) eqn:Hhigh; [| reflexivity].
  rewrite Z.gtb_lt in Hlow, Hhigh. lia.
Qed.

(** C9, as the claim states it, fails: [is_valid_code] applied to a list
    raises [TypeError], because the membership test [code in CODES] hashes
    its left operand; so not both predicates return on every input. *)
Lemma is_valid_code_not_total :
  is_app_code (VList []) = Return false
  /\ is_valid_code (VList []) = Raise (TypeError Unhashable)
  /\ ~ (forall v : value, exists b, is_valid_code v = Return b).
Proof.
  split; [reflexivity |].
  split; [reflexivity |].
  intros Htotal. destruct (Htotal (VList [])) as [b Hb]. discriminate Hb.
Qed.

(** C9 (amended).  [is_app_code] returns on every value, and returns
    [False] on every value that is not an integral number; [is_valid_code]
    returns on every hashable value, and raises [TypeError] on an
    unhashable one. *)
Theorem classification_total_on_hashable (v : value) :
  (exists b, is_app_code v = Return b)
  /\ (isinstance_Integral v = false -> is_app_code v = Return false)
  /\ (hashable v = true -> exists b, is_valid_code v = Return b)
  /\ (hashable v = false -> is_valid_code v = Raise (TypeError Unhashable)).
Proof.
  split; [apply is_app_code_returns |].
  split; [| split].
  - unfold is_app_code. now intros ->.
  - apply is_valid_code_hashable.
  - apply is_valid_code_unhashable.
Qed.

Lemma classification_total_on_hashable_witness :
  is_app_code (VStr "sha1") = Return false
  /\ is_app_code (VFloat (3 # 2)) = Return false
  /\ is_app_code VNone = Return false
  /\ (exists b, is_valid_code (VStr "sha1") = Return b)
  /\ is_valid_code (VDict []) = Raise (TypeError Unhashable).
Proof.
  split; [apply (classification_total_on_hashable (VStr "sha1")); reflexivity |].
  split; [apply (classification_total_on_hashable (VFloat (3 # 2))); reflexivity |].
  split; [apply (classification_total_on_hashable VNone); reflexivity |].
  split; [apply (classification_total_on_hashable (VStr "sha1")); reflexivity |].
  apply (classification_total_on_hashable (VDict [])); reflexivity.
Defined.

(** C10 (requested length 0).  The claim: [encode] with requested length 0
    returns a container whose length byte is [len(digest)] and whose
    payload is empty.  The code: [encode] returns no container; with
    requested length 0 it raises [NameError] as with any other. *)
Theorem encode_length_zero_raises (digest : bytes) (code : Z) (name : option string) :
  encode digest code (Some 0) name = Raise (NameError "LENGHTS")
  /\ encode sha1_digest SHA1 (Some 0) None = Raise (NameError "LENGHTS").
Proof.
  split; apply encode_raises.
Qed.

(** * Further properties of the module *)

(** ** [decode] and its check *)

(** X1.  [decode] returns on no buffer.  A buffer of fewer than two bytes
    raises [IndexError] (line 108); otherwise the first byte alone decides:
    a code with no entry in [CODES], application-specific codes included,
    raises [KeyError] (line 109), and a registered code raises [TypeError]
    (line 197).  The length byte and the digest play no part. *)
Theorem decode_raises_on_every_buffer (buf : bytes) :
  decode buf =
  match buf with
  | c :: _ :: _ =>
      if registered (byte_to_Z c)
      then Raise (TypeError NotCallable)
      else Raise (KeyError (VInt (byte_to_Z c)))
  | _ => Raise IndexError
  end.
Proof.
  destruct buf as [| c [| l d]].
  - apply decode_short. simpl. lia.
  - apply decode_short. simpl. lia.
  - apply decode_from_two_bytes.
Qed.

(** X2.  [__raise_errors_if_invalid_multihash_buffer] never returns
    normally: an invalid code raises the invalid-code [ValueError] of line
    194, and a valid one raises [TypeError] at [LENGTHS(code)] on line 197,
    whatever the length, name and digest; so the length tests of lines
    199-206 are never reached. *)
Theorem decoding_check_never_passes
    (code length : Z) (name : value) (digest : bytes) :
  __raise_errors_if_invalid_multihash_buffer code length name digest
  = if (0 <=? code) && (code <? 16) || registered code
    then Raise (TypeError NotCallable)
    else Raise (ValueError (InvalidMultihashCode (VInt code))).
Proof.
  unfold __raise_errors_if_invalid_multihash_buffer.
  rewrite is_valid_code_int; cbn [bind].
  destruct ((0 <=? code) && (code <? 16) || registered code) eqn:Hvalid.
  - reflexivity.
  - reflexivity.
Qed.

(** ** [encode] and its check *)

(** X3.  [__raise_errors_if_invalid_encoding_length] and [encode] raise
    [NameError] for the name [LENGHTS] on every digest, code, requested
    length and name: neither returns, and neither raises one of the
    module's own errors. *)
Theorem encode_raises_NameError_on_every_input
    (digest : bytes) (code : Z) (length : option Z) (name : option string) :
  __raise_errors_if_invalid_encoding_length digest code length
  = Raise (NameError "LENGHTS")
  /\ encode digest code length name = Raise (NameError "LENGHTS").
Proof.
  assert (Hcheck : __raise_errors_if_invalid_encoding_length digest code length
                   = Raise (NameError "LENGHTS")).
  { unfold __raise_errors_if_invalid_encoding_length.
    rewrite LENGHTS_is_unbound. reflexivity. }
  split; [exact Hcheck |].
  unfold encode. rewrite Hcheck. reflexivity.
Qed.

(** ** The classification predicates *)

(** X4.  [is_app_code] on every value: an [int] is an application code
    when it is in [0, 16), a [bool] always is (it is an integral number
    equal to 0 or 1), and nothing else is. *)
Theorem is_app_code_on_every_value (v : value) :
  is_app_code v
  = Return match v with
           | VInt n => (0 <=? n) && (n <? 16)
           | VBool _ => true
           | _ => false
           end.
Proof.
  destruct v as [| b | n | q | s | bs | items | items]; try reflexivity.
  - destruct b; reflexivity.
  - apply is_app_code_int.
Qed.

(** X5.  [is_valid_code] on floats.  A float is never an application
    code, but the membership test [code in CODES] compares numbers by
    value: a float is a valid code exactly when it equals a registered
    code.  So [17.0] is valid, while [5.0] is not although [5] is. *)
Theorem is_valid_code_on_floats :
  (forall q : Q,
      is_valid_code (VFloat q)
      = Return (existsb (fun k => Qeq_bool (inject_Z k) q) registry_keys))
  /\ (forall n : Z, is_valid_code (VFloat (inject_Z n)) = Return (registered n)).
Proof.
  assert (Hq : forall q : Q,
             is_valid_code (VFloat q)
             = Return (existsb (fun k => Qeq_bool (inject_Z k) q) registry_keys)).
  { intros q. unfold is_valid_code.
    change (is_app_code (VFloat q)) with (Return (A := bool) false).
    cbn [bind]. rewrite CODES_is_bound; cbn [bind].
    unfold py_in; cbn [hashable]. f_equal.
    unfold CODES, NAMES, registry_keys, registry.
    cbn [map fst snd dict_find existsb py_eq as_number].
    unfold SHA1, SHA2_256, SHA2_512, SHA3, BLAKE2B, BLAKE2S.
    repeat match goal with
           | |- context [Qeq_bool ?a q] =>
               destruct (Qeq_bool a q); cbn [orb]; try reflexivity
           end. }
  split; [exact Hq |].
  intros n. rewrite Hq. f_equal.
  assert (Heq : forall k, Qeq_bool (inject_Z k) (inject_Z n) = (n =? k)).
  { intros k. unfold Qeq_bool; simpl.
    rewrite !Z.mul_1_r. apply Z.eqb_sym. }
  unfold registered, registry_keys, registry.
  cbn [map fst snd existsb]. now rewrite !Heq.
Qed.

(** X6.  Names are not codes: [is_valid_code] returns [False] on [None],
    on every string (the hash names of [NAMES] included) and on every
    bytes object. *)
Theorem is_valid_code_rejects_non_numbers :
  is_valid_code VNone = Return false
  /\ (forall s : string, is_valid_code (VStr s) = Return false)
  /\ (forall bs : bytes, is_valid_code (VBytes bs) = Return false).
Proof.
  repeat split; intros; reflexivity.
Qed.

(** X7.  A registered code is never an application code: the two classes
    of valid codes are disjoint. *)
Theorem registered_code_is_not_app_code (n : Z) :
  py_in (VInt n) (VDict CODES) = Return true ->
  is_app_code (VInt n) = Return false.
Proof.
  rewrite py_in_CODES_int, is_app_code_int. intros Hreg.
  injection Hreg as Hreg. f_equal.
  unfold registered, registry_keys, registry in Hreg.
  cbn [map fst snd existsb] in Hreg.
  rewrite !orb_true_iff, !Z.eqb_eq in Hreg.
  apply andb_false_iff. rewrite Z.leb_gt, Z.ltb_ge. lia.
Qed.

Lemma registered_code_is_not_app_code_witness :
  is_app_code (VInt SHA1) = Return false.
Proof.
  apply (registered_code_is_not_app_code SHA1). reflexivity.
Defined.

(** X8.  Every valid integer code is between 0 and 0x41, so it fits the
    one code byte of a multihash. *)
Theorem valid_code_fits_a_byte (n : Z) :
  is_valid_code (VInt n) = Return true -> 0 <= n <= 0x41.
Proof.
  rewrite is_valid_code_int. intros Hvalid. injection Hvalid as Hvalid.
  unfold registered, registry_keys, registry in Hvalid.
  cbn [map fst snd existsb] in Hvalid.
  rewrite !orb_true_iff, andb_true_iff, !Z.eqb_eq, Z.leb_le, Z.ltb_lt in Hvalid.
  lia.
Qed.

Lemma valid_code_fits_a_byte_witness : 0 <= BLAKE2B <= 0x41.
Proof.
  apply (valid_code_fits_a_byte BLAKE2B). reflexivity.
Defined.

(** ** The tables [NAMES], [CODES] and [LENGTHS] *)

(** X9.  [CODES] inverts [NAMES]: a name that [NAMES] maps to a code is
    the name [CODES] gives back for that code. *)
Theorem CODES_inverts_NAMES (s : string) (c : value) :
  getitem (VDict NAMES) (VStr s) = Return c ->
  getitem (VDict CODES) c = Return (VStr s).
Proof.
  unfold getitem; cbn [hashable].
  unfold NAMES at 1. cbn [dict_find py_eq as_number].
  repeat match goal with
         | |- context [String.eqb ?a s] =>
             destruct (String.eqb_spec a s) as [<- | _];
             [intros Hc; injection Hc as <-; reflexivity |]
         end.
  discriminate.
Qed.

Lemma CODES_inverts_NAMES_witness :
  getitem (VDict CODES) (VInt SHA2_256) = Return (VStr "sha2-256").
Proof.
  apply (CODES_inverts_NAMES "sha2-256" (VInt SHA2_256)). reflexivity.
Defined.



(** X11.  [LENGTHS] and [CODES] have the same keys: membership of any
    value in one is membership in the other, so every registered code has
    a default length and no other code has one. *)
Theorem LENGTHS_has_the_keys_of_CODES (v : value) :
  py_in v (VDict LENGTHS) = py_in v (VDict CODES).
Proof.
  unfold py_in. destruct (hashable v); [| reflexivity].
  f_equal. unfold LENGTHS, CODES, NAMES. cbn [map fst snd dict_find].
  repeat match goal with
         | |- context [py_eq ?a v] => destruct (py_eq a v); try reflexivity
         end.
Qed.

(** X12.  Every default length of [LENGTHS] is an integer between 20 and
    64, inside the supported range of 1 to 127 bytes. *)
Theorem default_length_is_supported (n : Z) (v : value) :
  getitem (VDict LENGTHS) (VInt n) = Return v ->
  exists l, v = VInt l /\ 20 <= l <= 64 /\ 1 <= l <= 127.
Proof.
  unfold getitem; cbn [hashable].
  unfold LENGTHS. cbn [dict_find]. rewrite !py_eq_int.
  repeat match goal with
         | |- context [?a =? n] =>
             destruct (a =? n);
             [intros Hv; injection Hv as <-; eexists; split; [reflexivity | lia] |]
         end.
  discriminate.
Qed.

Lemma default_length_is_supported_witness :
  exists l, VInt 64 = VInt l /\ 20 <= l <= 64 /\ 1 <= l <= 127.
Proof.
  apply (default_length_is_supported SHA2_512 (VInt 64)). reflexivity.
Defined.
